(** * The open-gate MAC policy of [Sources/tsan_utils/tsan_utils.c]

    A shallow embedding of the kernel extension's one policy hook,
    [policy_should_allow_open], of its operations table [our_ops], of its
    descriptor [policy_configuration] and of its entry point
    [demoKextStart], together with the properties the specification states
    about them.

    The hook talks to the kernel through three KPI functions
    ([vnode_getname], [proc_selfname], [vnode_putname]); the entry point
    through [mac_policy_register].  None of them is code of this
    repository: they are taken as an oracle ([kpi], [mac_framework]) that
    supplies their answers, and every call the code makes is recorded, in
    program order, in a trace. *)

From stdpp Require Import base gmap strings.
From Stdlib Require Import ZArith Ascii String List Lia.
Import ListNotations.

Local Open Scope Z_scope.

(** ** C strings *)

Module CString.

(** A [const char *] that is not NULL points at a sequence of bytes; the
    string it denotes stops at the first NUL.  The bytes are a [string];
    its end is read as a terminator too, so that a literal such as
    ["ourApplication"] stands for the array the C compiler emits for it. *)

Definition NUL : ascii := Ascii.zero.

Fixpoint c_str (buf : string) : string :=
  match buf with
  | EmptyString => EmptyString
  | String c rest =>
      if Ascii.eqb c NUL then EmptyString else String c (c_str rest)
  end.

(** [strcmp] compares the bytes as [unsigned char]. *)
Definition uchar (c : ascii) : Z := Z.of_N (N_of_ascii c).

(** The byte under the pointer; past the end of the bytes it is NUL. *)
Definition deref (p : string) : ascii :=
  match p with EmptyString => NUL | String c _ => c end.

(** [strcmp(s1, s2)]: walk both strings while the bytes agree and are not
    NUL; the result is the difference of the first pair of bytes that
    differ, or 0 when both strings end together. *)
Fixpoint strcmp (s1 s2 : string) : Z :=
  match s1 with
  | EmptyString => uchar NUL - uchar (deref s2)
  | String c1 r1 =>
      match s2 with
      | EmptyString => uchar c1 - uchar NUL
      | String c2 r2 =>
          if Ascii.eqb c1 c2
          then (if Ascii.eqb c1 NUL then 0 else strcmp r1 r2)
          else uchar c1 - uchar c2
      end
  end.

End CString.
Import CString.

(** ** What the kernel headers supply

    [tsan_utils.h] and the kernel headers behind it are not part of the
    sources at hand.  The handle types the hook receives, the error number
    [EPERM], the length [MAXCOMLEN] of a process name and the load-time flag
    are taken from them as they are, without looking inside. *)

Class kernel_headers := {
  kauth_cred_t : Type;               (* credential handle *)
  vnode : Type;                      (* [struct vnode *] *)
  label : Type;                      (* [struct label *] *)
  kmod_info_t : Type;                (* [kmod_info_t *] *)
  xd : Type;                         (* the [void *] handed to the entry point *)
  EPERM : Z;
  MAXCOMLEN : nat;
  MPC_LOADTIME_FLAG_UNLOADOK : Z;
}.

(** ** Function bodies that call into the kernel *)

(** A statement either runs on to the next one, or is a [return] that ends
    the function with a value. *)
Inductive flow (R A : Type) :=
| Returned (r : R)
| Running (a : A).
Arguments Returned {R A} r.
Arguments Running {R A} a.

Section Kernel.
Context `{kernel_headers}.

(** One entry per call of a KPI function, with the arguments passed.  A
    [const char *] argument is [None] for NULL and [Some buf] for a pointer
    to the bytes [buf]. *)
Inductive kpi_call :=
| call_vnode_getname (vp : vnode)
| call_proc_selfname (size : nat)
| call_vnode_putname (name : option string).

(** What the kernel answers: the name pointer [vnode_getname] hands out
    for a vnode, and the bytes [proc_selfname] leaves in a buffer of the
    given size.  [vnode_putname] returns nothing. *)
Record kpi := {
  kpi_vnode_getname : vnode -> option string;
  kpi_proc_selfname : nat -> string;
}.

Definition body (R A : Type) : Type := kpi -> flow R A * list kpi_call.

#[export] Instance body_ret {R} : MRet (body R) :=
  fun A a _ => (Running a, []).

#[export] Instance body_bind {R} : MBind (body R) :=
  fun A B f m k =>
    match m k with
    | (Returned r, t) => (Returned r, t)
    | (Running a, t) => let '(o, t') := f a k in (o, t ++ t')
    end.

(** [return r;] *)
Definition return_ {R A} (r : R) : body R A := fun _ => (Returned r, []).

(** [if (c) { b }] with no [else]. *)
Definition when {R} (c : bool) (b : body R unit) : body R unit :=
  if c then b else mret tt.

(** A call of the function: its value, if a [return] was reached, and the
    KPI calls it made. *)
Definition call {R} (b : body R unit) (k : kpi) : option R * list kpi_call :=
  match b k with
  | (Returned r, t) => (Some r, t)
  | (Running _, t) => (None, t)
  end.

Definition vnode_getname {R} (vp : vnode) : body R (option string) :=
  fun k => (Running (kpi_vnode_getname k vp), [call_vnode_getname vp]).

Definition proc_selfname {R} (size : nat) : body R string :=
  fun k => (Running (kpi_proc_selfname k size), [call_proc_selfname size]).

Definition vnode_putname {R} (name : option string) : body R unit :=
  fun _ => (Running tt, [call_vnode_putname name]).

Definition is_putname (c : kpi_call) : bool :=
  match c with call_vnode_putname _ => true | _ => false end.

Definition is_getname (c : kpi_call) : bool :=
  match c with call_vnode_getname _ => true | _ => false end.

Definition is_selfname (c : kpi_call) : bool :=
  match c with call_proc_selfname _ => true | _ => false end.

(** ** The hook *)

(** [static int policy_should_allow_open(kauth_cred_t cred,
    struct vnode *vp, struct label *label, int acc_mode)].  The left
    operand of [&&] guards the [strcmp] on the name: it is not evaluated
    on a NULL pointer. *)
Definition policy_should_allow_open
    (cred : kauth_cred_t) (vp : vnode) (lbl : label) (acc_mode : Z)
  : body Z unit :=
  vnodeName ← vnode_getname vp;
  when (match vnodeName with
        | Some name => strcmp name "ourApplicationsFile" =? 0
        | None => false
        end)
    (procName ← proc_selfname (MAXCOMLEN + 1);
     when (negb (strcmp procName "ourApplication" =? 0))
       (vnode_putname vnodeName;;
        return_ EPERM));;
  vnode_putname vnodeName;;
  return_ 0.

(** ** The operations table and the policy descriptor *)

(** A function pointer stored in a slot of [struct mac_policy_ops]; the
    one signature the source uses. *)
Inductive mpo_fn :=
| mpo_vnode_check_open_fn
    (hook : kauth_cred_t -> vnode -> label -> Z -> body Z unit).

(** [static struct mac_policy_ops our_ops]: a designated initialiser names
    the slots it fills, every other slot of the structure is a null
    pointer.  The table is the finite map from the names of the filled
    slots to their function pointers. *)
Definition our_ops : gmap string mpo_fn :=
  {[ "mpo_vnode_check_open"%string :=
       mpo_vnode_check_open_fn policy_should_allow_open ]}.

Record mac_policy_conf := {
  mpc_name : string;
  mpc_fullname : string;
  mpc_labelnames : option (list string);
  mpc_labelname_count : Z;
  mpc_ops : gmap string mpo_fn;
  mpc_loadtime_flags : Z;
  mpc_field_off : option Z;
  mpc_runtime_flags : Z;
}.

Definition policy_configuration : mac_policy_conf := {|
  mpc_name := "com.demo.protectFileDemo";
  mpc_fullname := "Protect File Demo";
  mpc_labelnames := None;
  mpc_labelname_count := 0;
  mpc_ops := our_ops;
  mpc_loadtime_flags := MPC_LOADTIME_FLAG_UNLOADOK;
  mpc_field_off := None;
  mpc_runtime_flags := 0;
|}.

(** ** The entry point *)

Definition mac_policy_handle_t : Type := Z.

(** [mac_policy_register(mpc, handlep, xd)] answers a status and leaves a
    value in [*handlep]; it is given what [*handlep] held before. *)
Record mac_framework := {
  mac_policy_register :
    mac_policy_conf -> mac_policy_handle_t -> xd -> Z * mac_policy_handle_t;
}.

(** The one global of the file, [mac_policy_handle_t handle = 0]. *)
Record globals := { handle : mac_policy_handle_t }.

Definition initial_globals : globals := {| handle := 0 |}.

(** [int demoKextStart(kmod_info_t *ki, void *d)] *)
Definition demoKextStart
    (fw : mac_framework) (ki : kmod_info_t) (d : xd) (g : globals)
  : Z * globals :=
  let '(status, h) := mac_policy_register fw policy_configuration (handle g) d in
  (status, {| handle := h |}).

End Kernel.

(** ** A kernel to run the code on

    The values of the Darwin headers, and a kernel that names every vnode
    [file] and reports [comm] as the name of the calling process. *)

Definition darwin : kernel_headers := {|
  kauth_cred_t := N;
  vnode := N;
  label := N;
  kmod_info_t := N;
  xd := N;
  EPERM := 1;
  MAXCOMLEN := 16;
  MPC_LOADTIME_FLAG_UNLOADOK := 2;
|}.

Definition fixed_kpi (file : option string) (comm : string) : @kpi darwin := {|
  kpi_vnode_getname := fun _ => file;
  kpi_proc_selfname := fun _ => comm;
|}.

(** A framework that accepts every policy and hands out handle 7. *)
Definition accepting_framework : @mac_framework darwin := {|
  mac_policy_register := fun _ _ _ => (0, 7);
|}.

(** *** Facts about [strcmp] *)

Lemma uchar_inj (a b : ascii) : uchar a = uchar b -> a = b.
Proof.
  unfold uchar. intros H. apply N2Z.inj in H.
  rewrite <- (ascii_N_embedding a), <- (ascii_N_embedding b). now rewrite H.
Qed.

Lemma uchar_NUL : uchar NUL = 0.
Proof. reflexivity. Qed.

Lemma uchar_diff_0 (a b : ascii) : uchar a - uchar b = 0 <-> a = b.
Proof.
  split.
  - intros H. apply uchar_inj. lia.
  - intros ->. lia.
Qed.

Lemma c_str_nil_iff (s : string) : c_str s = EmptyString <-> deref s = NUL.
Proof.
  destruct s as [|c r]; simpl.
  - tauto.
  - destruct (Ascii.eqb_spec c NUL) as [->|Hc]; split; intros; congruence.
Qed.

(** [strcmp] answers 0 exactly when the two pointers denote the same
    string. *)
Lemma strcmp_0_iff (s1 s2 : string) :
  strcmp s1 s2 = 0 <-> c_str s1 = c_str s2.
Proof.
  revert s2. induction s1 as [|c1 r1 IH]; intros s2.
  - simpl strcmp. rewrite uchar_NUL.
    assert (0 - uchar (deref s2) = 0 <-> deref s2 = NUL) as ->.
    { rewrite <- uchar_NUL at 1. rewrite uchar_diff_0. split; congruence. }
    rewrite <- c_str_nil_iff. simpl. split; congruence.
  - destruct s2 as [|c2 r2].
    + simpl strcmp. rewrite uchar_diff_0.
      rewrite <- (c_str_nil_iff (String c1 r1)). simpl. tauto.
    + simpl. destruct (Ascii.eqb_spec c1 c2) as [->|Hne].
      * destruct (Ascii.eqb_spec c2 NUL) as [->|Hc]; [tauto|].
        rewrite IH. split; [intros ->; reflexivity | congruence].
      * rewrite uchar_diff_0.
        destruct (Ascii.eqb_spec c1 NUL) as [->|H1];
          destruct (Ascii.eqb_spec c2 NUL) as [->|H2];
          split; congruence.
Qed.

Lemma strcmp_eqb_true (s1 s2 : string) :
  c_str s1 = c_str s2 -> (strcmp s1 s2 =? 0) = true.
Proof. intros H. apply Z.eqb_eq. now apply strcmp_0_iff. Qed.

Lemma strcmp_eqb_false (s1 s2 : string) :
  c_str s1 <> c_str s2 -> (strcmp s1 s2 =? 0) = false.
Proof. intros H. apply Z.eqb_neq. now rewrite strcmp_0_iff. Qed.

(** ** Running the hook

    The four ways through [policy_should_allow_open], each with the value
    returned and the KPI calls made on the way. *)

Ltac run_hook :=
  unfold call, policy_should_allow_open, when, vnode_getname, proc_selfname,
    vnode_putname, return_, mbind, body_bind, mret, body_ret.

Section HookRuns.
Context `{kernel_headers}.
Variables (k : kpi) (cred : kauth_cred_t) (vp : vnode) (lbl : label).
Variable acc_mode : Z.

Local Abbreviation hook := (policy_should_allow_open cred vp lbl acc_mode).
Local Abbreviation comm := (kpi_proc_selfname k (MAXCOMLEN + 1)).

Lemma run_null_name :
  kpi_vnode_getname k vp = None ->
  call hook k = (Some 0, [call_vnode_getname vp; call_vnode_putname None]).
Proof. intros E. run_hook. now rewrite E. Qed.

Lemma run_other_file (name : string) :
  kpi_vnode_getname k vp = Some name ->
  c_str name <> "ourApplicationsFile"%string ->
  call hook k
  = (Some 0, [call_vnode_getname vp; call_vnode_putname (Some name)]).
Proof.
  intros E Hne. run_hook. rewrite E.
  now rewrite (strcmp_eqb_false name "ourApplicationsFile").
Qed.

Lemma run_owner (name : string) :
  kpi_vnode_getname k vp = Some name ->
  c_str name = "ourApplicationsFile"%string ->
  c_str comm = "ourApplication"%string ->
  call hook k
  = (Some 0, [call_vnode_getname vp; call_proc_selfname (MAXCOMLEN + 1);
              call_vnode_putname (Some name)]).
Proof.
  intros E Hfile Hproc. run_hook. rewrite E.
  rewrite (strcmp_eqb_true name "ourApplicationsFile") by exact Hfile.
  now rewrite (strcmp_eqb_true comm "ourApplication") by exact Hproc.
Qed.

Lemma run_stranger (name : string) :
  kpi_vnode_getname k vp = Some name ->
  c_str name = "ourApplicationsFile"%string ->
  c_str comm <> "ourApplication"%string ->
  call hook k
  = (Some EPERM, [call_vnode_getname vp; call_proc_selfname (MAXCOMLEN + 1);
                  call_vnode_putname (Some name)]).
Proof.
  intros E Hfile Hproc. run_hook. rewrite E.
  rewrite (strcmp_eqb_true name "ourApplicationsFile") by exact Hfile.
  now rewrite (strcmp_eqb_false comm "ourApplication") by exact Hproc.
Qed.

(** Every call takes one of the four ways. *)
Lemma run_cases :
  (kpi_vnode_getname k vp = None /\
   call hook k = (Some 0, [call_vnode_getname vp; call_vnode_putname None]))
  \/
  (exists name,
     kpi_vnode_getname k vp = Some name /\
     c_str name <> "ourApplicationsFile"%string /\
     call hook k
     = (Some 0, [call_vnode_getname vp; call_vnode_putname (Some name)]))
  \/
  (exists name,
     kpi_vnode_getname k vp = Some name /\
     c_str name = "ourApplicationsFile"%string /\
     exists r,
       call hook k
       = (Some r, [call_vnode_getname vp; call_proc_selfname (MAXCOMLEN + 1);
                   call_vnode_putname (Some name)]) /\
       (c_str comm = "ourApplication"%string /\ r = 0 \/
        c_str comm <> "ourApplication"%string /\ r = EPERM)).
Proof.
  destruct (kpi_vnode_getname k vp) as [name|] eqn:E.
  - right. destruct (string_dec (c_str name) "ourApplicationsFile") as [Hf|Hf].
    + right. exists name. repeat split; trivial.
      destruct (string_dec (c_str comm) "ourApplication") as [Hp|Hp].
      * exists 0. split; [now apply run_owner | now left].
      * exists EPERM. split; [now apply run_stranger | now right].
    + left. exists name. repeat split; trivial. now apply run_other_file.
  - left. split; trivial. now apply run_null_name.
Qed.

End HookRuns.

(** ** The decision of the hook *)

Section Decision.
Context `{kernel_headers}.
Variables (k : kpi) (cred : kauth_cred_t) (vp : vnode) (lbl : label).
Variable acc_mode : Z.

Local Abbreviation hook := (policy_should_allow_open cred vp lbl acc_mode).
Local Abbreviation comm := (kpi_proc_selfname k (MAXCOMLEN + 1)).

(** C1. When the name of the vnode is "ourApplicationsFile" and the name
    the kernel reports for the calling process is not "ourApplication",
    the hook returns [EPERM]. *)
Theorem deny_foreign_process (name : string) :
  kpi_vnode_getname k vp = Some name ->
  c_str name = "ourApplicationsFile"%string ->
  c_str comm <> "ourApplication"%string ->
  fst (call hook k) = Some EPERM.
Proof.
  intros E Hfile Hproc. now rewrite (run_stranger _ _ _ _ _ name E Hfile Hproc).
Qed.

(** C2. When the name of the vnode is not NULL and is not
    "ourApplicationsFile", the hook returns 0, whatever the process name
    and the access mode. *)
Theorem allow_other_file (name : string) :
  kpi_vnode_getname k vp = Some name ->
  c_str name <> "ourApplicationsFile"%string ->
  fst (call hook k) = Some 0.
Proof.
  intros E Hfile. now rewrite (run_other_file _ _ _ _ _ name E Hfile).
Qed.

(** C3. When the name of the vnode is "ourApplicationsFile" and the
    calling process is named "ourApplication", the hook returns 0. *)
Theorem allow_our_application (name : string) :
  kpi_vnode_getname k vp = Some name ->
  c_str name = "ourApplicationsFile"%string ->
  c_str comm = "ourApplication"%string ->
  fst (call hook k) = Some 0.
Proof.
  intros E Hfile Hproc. now rewrite (run_owner _ _ _ _ _ name E Hfile Hproc).
Qed.

(** C4. When [vnode_getname] answers NULL, the hook returns 0, whatever
    the process name and the access mode. *)
Theorem allow_unnamed_vnode :
  kpi_vnode_getname k vp = None ->
  fst (call hook k) = Some 0.
Proof.
  intros E. now rewrite (run_null_name _ _ _ _ _ E).
Qed.

(** C5. The comparison of the process name is exact and case-sensitive: a
    process named "OurApplication" that opens "ourApplicationsFile" is
    refused with [EPERM]. *)
Theorem process_name_case_sensitive (name : string) :
  kpi_vnode_getname k vp = Some name ->
  c_str name = "ourApplicationsFile"%string ->
  c_str comm = "OurApplication"%string ->
  fst (call hook k) = Some EPERM.
Proof.
  intros E Hfile Hproc.
  rewrite (run_stranger _ _ _ _ _ name E Hfile); [reflexivity|].
  rewrite Hproc. discriminate.
Qed.

(** C6. The access mode is never looked at: two calls that differ only in
    [acc_mode] return the same value (and make the same KPI calls). *)
Theorem access_mode_irrelevant (acc_mode' : Z) :
  call (policy_should_allow_open cred vp lbl acc_mode) k
  = call (policy_should_allow_open cred vp lbl acc_mode') k.
Proof. reflexivity. Qed.

(** C7. On every way through the hook the function returns, and before it
    does [vnode_putname] is called exactly once, on the pointer that
    [vnode_getname] answered: the trace starts with the [vnode_getname]
    call, ends with that [vnode_putname] call, and has no other call of
    either in between. *)
Theorem name_released_exactly_once :
  exists (r : Z) (mid : list kpi_call),
    call hook k
    = (Some r,
       call_vnode_getname vp :: mid
         ++ [call_vnode_putname (kpi_vnode_getname k vp)])
    /\ List.filter is_putname mid = []
    /\ List.filter is_getname mid = [].
Proof.
  destruct (run_cases k cred vp lbl acc_mode)
    as [[E Hrun] | [(name & E & _ & Hrun) | (name & E & _ & r & Hrun & _)]];
    rewrite Hrun, E.
  - now exists 0, [].
  - now exists 0, [].
  - now exists r, [call_proc_selfname (MAXCOMLEN + 1)].
Qed.

(** C8. The hook returns 0 or [EPERM] and nothing else; a name that cannot
    be looked up and a name that does not match both give 0. *)
Theorem status_is_zero_or_EPERM :
  exists r : Z,
    fst (call hook k) = Some r
    /\ (r = 0 \/ r = EPERM)
    /\ (kpi_vnode_getname k vp = None -> r = 0)
    /\ (forall name, kpi_vnode_getname k vp = Some name ->
          c_str name <> "ourApplicationsFile"%string -> r = 0).
Proof.
  destruct (run_cases k cred vp lbl acc_mode)
    as [[E Hrun] | [(name & E & Hne & Hrun)
                   | (name & E & Hf & r & Hrun & Hr)]];
    rewrite Hrun; simpl.
  - exists 0. auto.
  - exists 0. auto.
  - exists r. repeat split.
    + destruct Hr as [[_ ->] | [_ ->]]; auto.
    + congruence.
    + intros name' E' Hne. congruence.
Qed.

(** C10. When [vnode_getname] answers NULL the hook still calls
    [vnode_putname], with that NULL pointer, and then returns 0: the
    calls made are [vnode_getname(vp)] and [vnode_putname(NULL)], in that
    order, and no others. *)
Theorem putname_called_on_null :
  kpi_vnode_getname k vp = None ->
  call hook k
  = (Some 0, [call_vnode_getname vp; call_vnode_putname None]).
Proof.
  intros E. run_hook. rewrite E. reflexivity.
Qed.

End Decision.

(** ** The operations table and the entry point *)

Section EntryPoint.
Context `{kernel_headers}.

(** The slots of [our_ops] that hold a function pointer. *)
Lemma our_ops_slots (slot : string) :
  is_Some (our_ops !! slot) <-> slot = "mpo_vnode_check_open"%string.
Proof.
  unfold our_ops. rewrite lookup_singleton_is_Some. split; congruence.
Qed.

Lemma our_ops_size : size our_ops = 1%nat.
Proof. apply map_size_singleton. Qed.

(** C9. [demoKextStart] hands [policy_configuration] to
    [mac_policy_register]; the operations table of that configuration has
    one filled slot, [mpo_vnode_check_open], which holds the hook; the
    handle the framework leaves behind is what [handle] holds afterwards;
    and the value returned is the status the framework answered. *)
Theorem demoKextStart_registers
    (fw : mac_framework) (ki : kmod_info_t) (d : xd) (g : globals) :
  demoKextStart fw ki d g
  = (fst (mac_policy_register fw policy_configuration (handle g) d),
     {| handle :=
          snd (mac_policy_register fw policy_configuration (handle g) d) |})
  /\ (forall slot : string,
        is_Some (mpc_ops policy_configuration !! slot)
        <-> slot = "mpo_vnode_check_open"%string)
  /\ mpc_ops policy_configuration !! "mpo_vnode_check_open"%string
     = Some (mpo_vnode_check_open_fn policy_should_allow_open)
  /\ size (mpc_ops policy_configuration) = 1%nat.
Proof.
  split; [|split; [|split]].
  - unfold demoKextStart.
    now destruct (mac_policy_register fw policy_configuration (handle g) d).
  - intros slot. apply our_ops_slots.
  - apply lookup_singleton_eq.
  - apply our_ops_size.
Qed.

End EntryPoint.

(** ** The theorems at work on the Darwin kernel *)

Section OnDarwin.
Local Existing Instance darwin.
Local Open Scope string_scope.

Lemma deny_foreign_process_witness :
  fst (call (policy_should_allow_open 501%N 42%N 0%N 1)
         (fixed_kpi (Some "ourApplicationsFile") "otherApp"))
  = Some 1.
Proof.
  apply (deny_foreign_process
           (fixed_kpi (Some "ourApplicationsFile") "otherApp")
           501%N 42%N 0%N 1 "ourApplicationsFile").
  - reflexivity.
  - reflexivity.
  - vm_compute. discriminate.
Defined.

Lemma allow_other_file_witness :
  fst (call (policy_should_allow_open 501%N 42%N 0%N 2)
         (fixed_kpi (Some "notes.txt") "otherApp"))
  = Some 0.
Proof.
  apply (allow_other_file (fixed_kpi (Some "notes.txt") "otherApp")
           501%N 42%N 0%N 2 "notes.txt").
  - reflexivity.
  - vm_compute. discriminate.
Defined.

Lemma allow_our_application_witness :
  fst (call (policy_should_allow_open 501%N 42%N 0%N 3)
         (fixed_kpi (Some "ourApplicationsFile") "ourApplication"))
  = Some 0.
Proof.
  apply (allow_our_application
           (fixed_kpi (Some "ourApplicationsFile") "ourApplication")
           501%N 42%N 0%N 3 "ourApplicationsFile");
    reflexivity.
Defined.

Lemma allow_unnamed_vnode_witness :
  fst (call (policy_should_allow_open 501%N 42%N 0%N 1)
         (fixed_kpi None "otherApp"))
  = Some 0.
Proof.
  apply (allow_unnamed_vnode (fixed_kpi None "otherApp") 501%N 42%N 0%N 1).
  reflexivity.
Defined.

Lemma process_name_case_sensitive_witness :
  fst (call (policy_should_allow_open 501%N 42%N 0%N 1)
         (fixed_kpi (Some "ourApplicationsFile") "OurApplication"))
  = Some 1.
Proof.
  apply (process_name_case_sensitive
           (fixed_kpi (Some "ourApplicationsFile") "OurApplication")
           501%N 42%N 0%N 1 "ourApplicationsFile");
    reflexivity.
Defined.

Lemma status_is_zero_or_EPERM_witness :
  fst (call (policy_should_allow_open 501%N 42%N 0%N 1)
         (fixed_kpi None "otherApp"))
  = Some 0.
Proof.
  destruct (status_is_zero_or_EPERM (fixed_kpi None "otherApp")
              501%N 42%N 0%N 1) as (r & Hrun & _ & Hnull & _).
  rewrite Hrun. f_equal. apply Hnull. reflexivity.
Defined.

Lemma putname_called_on_null_witness :
  call (policy_should_allow_open 501%N 42%N 0%N 1)
    (fixed_kpi None "ourApplication")
  = (Some 0, [call_vnode_getname 42%N; call_vnode_putname None]).
Proof.
  apply (putname_called_on_null (fixed_kpi None "ourApplication")
           501%N 42%N 0%N 1).
  reflexivity.
Defined.

Lemma demoKextStart_registers_witness :
  demoKextStart accepting_framework 0%N 0%N initial_globals
  = (0, {| handle := 7 |})
  /\ is_Some (mpc_ops policy_configuration !! "mpo_vnode_check_open")
  /\ ~ is_Some (mpc_ops policy_configuration !! "mpo_vnode_check_access").
Proof.
  destruct (demoKextStart_registers accepting_framework 0%N 0%N
              initial_globals) as (Hrun & Hslots & _ & _).
  split; [exact Hrun|]. split.
  - apply Hslots. reflexivity.
  - rewrite Hslots. discriminate.
Defined.

End OnDarwin.

(** ** More about the C strings the hook compares *)

(** Whatever follows a NUL in a buffer is not part of the string. *)
Lemma c_str_append_NUL (s rest : string) :
  c_str (String.append s (String NUL rest)) = c_str s.
Proof.
  induction s as [|c s IH]; simpl.
  - reflexivity.
  - destruct (Ascii.eqb c NUL); [reflexivity | now rewrite IH].
Qed.

(** ** What the hook asks of the kernel, and when it refuses *)

Section Gate.
Context `{kernel_headers}.
Variables (k : kpi) (cred : kauth_cred_t) (vp : vnode) (lbl : label).
Variable acc_mode : Z.

Local Abbreviation hook := (policy_should_allow_open cred vp lbl acc_mode).
Local Abbreviation comm := (kpi_proc_selfname k (MAXCOMLEN + 1)).

(** X1. The hook asks for the name of the calling process only when the
    vnode is named "ourApplicationsFile": then it calls [proc_selfname]
    once, with a buffer of [MAXCOMLEN + 1] bytes; for a vnode with no name
    or another name it never calls [proc_selfname]. *)
Theorem selfname_only_for_gated_file :
  ((exists name, kpi_vnode_getname k vp = Some name /\
                 c_str name = "ourApplicationsFile"%string) ->
   List.filter is_selfname (snd (call hook k))
   = [call_proc_selfname (MAXCOMLEN + 1)])
  /\
  (~ (exists name, kpi_vnode_getname k vp = Some name /\
                   c_str name = "ourApplicationsFile"%string) ->
   List.filter is_selfname (snd (call hook k)) = []).
Proof.
  destruct (run_cases k cred vp lbl acc_mode)
    as [[E Hrun] | [(name & E & Hne & Hrun) | (name & E & Hf & r & Hrun & _)]];
    rewrite Hrun; simpl; split; trivial.
  - intros (name & E' & _). congruence.
  - intros (name' & E' & Hf). congruence.
  - intros Hno. exfalso. apply Hno. now exists name.
Qed.

(** X2. Where [EPERM] is not 0, the hook returns [EPERM] exactly when the
    vnode is named "ourApplicationsFile" and the calling process is not
    named "ourApplication": it refuses nothing else. *)
Theorem deny_iff :
  EPERM <> 0 ->
  fst (call hook k) = Some EPERM
  <-> exists name, kpi_vnode_getname k vp = Some name /\
                   c_str name = "ourApplicationsFile"%string /\
                   c_str comm <> "ourApplication"%string.
Proof.
  intros Hperm.
  destruct (run_cases k cred vp lbl acc_mode)
    as [[E Hrun] | [(name & E & Hne & Hrun)
                   | (name & E & Hf & r & Hrun & Hr)]];
    rewrite Hrun; simpl.
  - split; [intros [= Hr]; congruence | intros (name & E' & _); congruence].
  - split; [intros [= Hr]; congruence | intros (name' & E' & Hf & _); congruence].
  - destruct Hr as [[Hp ->] | [Hp ->]].
    + split; [intros [= Hr]; congruence|].
      intros (name' & _ & _ & Hp'). contradiction.
    + split; [|reflexivity]. intros _. now exists name.
Qed.

(** X4. Bytes that follow the terminating NUL in the buffer
    [proc_selfname] fills do not count: a buffer that holds
    "ourApplication", a NUL and then anything at all is the name
    "ourApplication", and the gated file is opened. *)
Theorem bytes_after_NUL_ignored (name rest : string) :
  kpi_vnode_getname k vp = Some name ->
  c_str name = "ourApplicationsFile"%string ->
  comm = String.append "ourApplication" (String NUL rest) ->
  fst (call hook k) = Some 0.
Proof.
  intros E Hf Hbuf.
  rewrite (run_owner _ _ _ _ _ name E Hf); [reflexivity|].
  rewrite Hbuf. apply (c_str_append_NUL "ourApplication").
Qed.

(** X5. The gate is on the whole name, not on a prefix: a vnode whose name
    goes on after "ourApplicationsFile" with a byte that is not NUL is
    opened for every process, and [proc_selfname] is not called. *)
Theorem longer_name_not_gated (c : ascii) (rest : string) :
  c <> NUL ->
  kpi_vnode_getname k vp
  = Some (String.append "ourApplicationsFile" (String c rest)) ->
  call hook k
  = (Some 0,
     [call_vnode_getname vp;
      call_vnode_putname
        (Some (String.append "ourApplicationsFile" (String c rest)))]).
Proof.
  intros Hc E. apply run_other_file; [exact E|].
  simpl. destruct (Ascii.eqb_spec c NUL) as [->|_]; [contradiction|].
  discriminate.
Qed.

End Gate.

Section Inputs.
Context `{kernel_headers}.

(** X3. The value returned depends on the inputs only through two C
    strings, the name of the vnode (or its absence) and the name of the
    process: credential, label, access mode, the vnode itself and the bytes
    past a NUL play no part. *)
Theorem decision_depends_only_on_names
    (k k' : kpi) (cred cred' : kauth_cred_t) (vp vp' : vnode)
    (lbl lbl' : label) (acc_mode acc_mode' : Z) :
  c_str <$> kpi_vnode_getname k vp = c_str <$> kpi_vnode_getname k' vp' ->
  c_str (kpi_proc_selfname k (MAXCOMLEN + 1))
  = c_str (kpi_proc_selfname k' (MAXCOMLEN + 1)) ->
  fst (call (policy_should_allow_open cred vp lbl acc_mode) k)
  = fst (call (policy_should_allow_open cred' vp' lbl' acc_mode') k').
Proof.
  intros Hname Hproc.
  destruct (kpi_vnode_getname k vp) as [n|] eqn:E;
    destruct (kpi_vnode_getname k' vp') as [n'|] eqn:E';
    try discriminate Hname.
  - injection Hname as Hn.
    destruct (string_dec (c_str n) "ourApplicationsFile") as [Hf|Hf].
    + assert (Hf' : c_str n' = "ourApplicationsFile"%string) by congruence.
      destruct (string_dec (c_str (kpi_proc_selfname k (MAXCOMLEN + 1)))
                  "ourApplication") as [Hp|Hp].
      * rewrite (run_owner _ _ _ _ _ n E Hf Hp).
        rewrite (run_owner _ _ _ _ _ n' E' Hf'); [reflexivity | congruence].
      * rewrite (run_stranger _ _ _ _ _ n E Hf Hp).
        rewrite (run_stranger _ _ _ _ _ n' E' Hf'); [reflexivity | congruence].
    + rewrite (run_other_file _ _ _ _ _ n E Hf).
      rewrite (run_other_file _ _ _ _ _ n' E'); [reflexivity | congruence].
  - rewrite (run_null_name _ _ _ _ _ E), (run_null_name _ _ _ _ _ E').
    reflexivity.
Qed.

End Inputs.

(** ** These properties at work on the Darwin kernel *)

Section GateOnDarwin.
Local Existing Instance darwin.
Local Open Scope string_scope.

Lemma selfname_only_for_gated_file_witness :
  List.filter is_selfname
    (snd (call (policy_should_allow_open 501%N 42%N 0%N 1)
            (fixed_kpi (Some "ourApplicationsFile") "otherApp")))
  = [call_proc_selfname 17]
  /\ List.filter is_selfname
       (snd (call (policy_should_allow_open 501%N 42%N 0%N 1)
               (fixed_kpi (Some "notes.txt") "otherApp")))
     = [].
Proof.
  split.
  - apply (selfname_only_for_gated_file
             (fixed_kpi (Some "ourApplicationsFile") "otherApp")
             501%N 42%N 0%N 1).
    exists "ourApplicationsFile". split; reflexivity.
  - apply (selfname_only_for_gated_file
             (fixed_kpi (Some "notes.txt") "otherApp") 501%N 42%N 0%N 1).
    intros (name & E & Hf). vm_compute in E. injection E as <-.
    vm_compute in Hf. discriminate.
Defined.

Lemma deny_iff_witness :
  exists name,
    kpi_vnode_getname (fixed_kpi (Some "ourApplicationsFile") "Finder") 42%N
    = Some name
    /\ c_str name = "ourApplicationsFile"
    /\ c_str (kpi_proc_selfname
                (fixed_kpi (Some "ourApplicationsFile") "Finder") 17)
       <> "ourApplication".
Proof.
  apply (deny_iff (fixed_kpi (Some "ourApplicationsFile") "Finder")
           501%N 42%N 0%N 1).
  - vm_compute. discriminate.
  - reflexivity.
Defined.

Lemma decision_depends_only_on_names_witness :
  fst (call (policy_should_allow_open 501%N 42%N 0%N 1)
         (fixed_kpi (Some (String.append "ourApplicationsFile"
                             (String NUL "tail")))
            "ourApplication"))
  = fst (call (policy_should_allow_open 0%N 43%N 9%N 2)
           (fixed_kpi (Some "ourApplicationsFile")
              (String.append "ourApplication" (String NUL "xy")))).
Proof.
  apply decision_depends_only_on_names; reflexivity.
Defined.

Lemma bytes_after_NUL_ignored_witness :
  fst (call (policy_should_allow_open 501%N 42%N 0%N 1)
         (fixed_kpi (Some "ourApplicationsFile")
            (String.append "ourApplication" (String NUL "??"))))
  = Some 0.
Proof.
  apply (bytes_after_NUL_ignored
           (fixed_kpi (Some "ourApplicationsFile")
              (String.append "ourApplication" (String NUL "??")))
           501%N 42%N 0%N 1 "ourApplicationsFile" "??");
    reflexivity.
Defined.

Lemma longer_name_not_gated_witness :
  call (policy_should_allow_open 501%N 42%N 0%N 1)
    (fixed_kpi (Some "ourApplicationsFile2") "otherApp")
  = (Some 0,
     [call_vnode_getname 42%N;
      call_vnode_putname (Some "ourApplicationsFile2")]).
Proof.
  apply (longer_name_not_gated
           (fixed_kpi (Some "ourApplicationsFile2") "otherApp")
           501%N 42%N 0%N 1 "2" "").
  - vm_compute. discriminate.
  - reflexivity.
Defined.

End GateOnDarwin.
